(** * ntangled.kit, module [safe]: errors as values

    A shallow embedding of [src/safe.ts]: the class [NullError] and the two
    entry points [x] (execute) and [w] (wrap), over a small model of the
    JavaScript values and effects they touch.

    - A callback is an opaque effectful function: it reads and writes the
      store, and either returns a value or throws one.
    - A host promise is denoted by its settlement: what the event loop finds
      when the promise's job has run (fulfilled, rejected, or still pending
      for ever), together with the store the job leaves behind.
    - Every other object the caller brings (plain objects, functions, custom
      errors, home-made thenables) is a [foreign] reference whose methods
      belong to the host, see [host].
    - Properties are data properties: no accessor, proxy or patched built-in
      prototype is modelled. *)

From Stdlib Require Import ZArith List String Bool.
Import ListNotations.
Local Open Scope string_scope.

Set Warnings "-register-all".

(** ** Values *)

(** The numbers the claims need: integer-valued doubles and NaN. *)
Inductive number :=
| Int (z : Z)
| NaN.

(** Classes whose instances the module or the engine builds itself. *)
Inductive class :=
| CError
| CNullError
| CTypeError.

(** [class C extends D]. *)
Definition extends (c : class) : option class :=
  match c with
  | CError => None
  | CNullError => Some CError
  | CTypeError => Some CError
  end.

Definition class_eqb (c d : class) : bool :=
  match c, d with
  | CError, CError | CNullError, CNullError | CTypeError, CTypeError => true
  | _, _ => false
  end.

(** An error object built by a constructor call: its reference, the class
    of its prototype and its two own properties. *)
Record instance := Instance {
  ref : nat;
  proto : class;
  name : string;
  message : string
}.

Inductive settlement (V : Type) :=
| Pending
| Fulfilled (v : V)
| Rejected (e : V).
Arguments Pending {V}.
Arguments Fulfilled {V} v.
Arguments Rejected {V} e.

Section Model.

(** References to the caller's own objects, and the caller's mutable world. *)
Context {foreign world : Type}.

(** The store: the caller's world and the next unused object reference. *)
Record store := Store {
  user : world;
  next_ref : nat
}.

Inductive val :=
| VUndefined
| VNull
| VBool (b : bool)
| VNumber (n : number)
| VString (s : string)
| VArray (elems : list val)
| VObject (i : instance)
| VPromise (settle : store -> settlement val * store)
| VForeign (o : foreign).

Definition promise := store -> settlement val * store.

(** ** Effects: state and exceptions *)

Inductive completion (A : Type) :=
| Normal (a : A)
| Throw (e : val).
Arguments Normal {A} a.
Arguments Throw {A} e.

Definition js (A : Type) := store -> completion A * store.

Definition ret {A} (a : A) : js A := fun s => (Normal a, s).

Definition throw {A} (e : val) : js A := fun s => (Throw e, s).

Definition bind {A B} (m : js A) (k : A -> js B) : js B :=
  fun s =>
    match m s with
    | (Normal a, s1) => k a s1
    | (Throw e, s1) => (Throw e, s1)
    end.

(** [try { body } catch (error) { handler }]. *)
Definition try_catch {A} (body : js A) (handler : val -> js A) : js A :=
  fun s =>
    match body s with
    | (Normal a, s1) => (Normal a, s1)
    | (Throw e, s1) => handler e s1
    end.

Notation "x <- m ;; k" := (bind m (fun x => k))
  (at level 61, m at next level, right associativity).
Notation "'try' body 'catch' handler" := (try_catch body handler)
  (at level 62, body at level 61, handler at level 61).

(** [Callback extends (...params: any[]) => any], and the one-argument
    functions handed to [then] and [catch]. *)
Definition Callback := list val -> js val.
Definition continuation := val -> js val.

(** ** The host *)

(** What the engine and the caller's objects do. [is_function s o key] is
    [typeof o[key] === 'function'] in store [s]; [call o key h] is the
    method call [o[key](h)] whose only argument is the continuation [h];
    [type_error_text] is the engine's wording of its TypeError. *)
Record host := Host {
  is_function : store -> foreign -> string -> bool;
  call : foreign -> string -> continuation -> js val;
  type_error_text : string -> string
}.

(** Allocation of an error object by [new C(...)]. *)
Definition construct (c : class) (nm msg : string) : js val :=
  fun s =>
    (Normal (VObject (Instance (next_ref s) c nm msg)),
     Store (user s) (S (next_ref s))).

(** [v instanceof C] for the classes above: walk the prototype chain. *)
Fixpoint chain_has (fuel : nat) (c target : class) : bool :=
  class_eqb c target ||
  match fuel with
  | O => false
  | S n => match extends c with
           | Some d => chain_has n d target
           | None => false
           end
  end.

Definition instanceof (v : val) (c : class) : bool :=
  match v with
  | VObject i => chain_has 2 (proto i) c
  | _ => false
  end.

(** ToBoolean. *)
Definition truthy (v : val) : bool :=
  match v with
  | VUndefined | VNull => false
  | VBool b => b
  | VNumber (Int z) => negb (Z.eqb z 0)
  | VNumber NaN => false
  | VString s => negb (String.eqb s "")
  | VArray _ | VObject _ | VPromise _ | VForeign _ => true
  end.

(** [v === null]. *)
Definition is_null (v : val) : bool :=
  match v with
  | VNull => true
  | _ => false
  end.

(** ** Host promises *)

(** The promise resolution of a handler's result: a host promise is
    adopted, anything else fulfils. (The continuations of this module
    return arrays only.) *)
Definition resolve (r : val) : promise :=
  match r with
  | VPromise q => q
  | _ => fun s => (Fulfilled r, s)
  end.

Definition run_reaction (h : continuation) (v : val) : promise :=
  fun s =>
    match h v s with
    | (Normal r, s1) => resolve r s1
    | (Throw e, s1) => (Rejected e, s1)
    end.

(** [p.then(onFulfilled)]: a rejection passes through. *)
Definition Promise_then (p : promise) (onFulfilled : continuation) : promise :=
  fun s =>
    match p s with
    | (Fulfilled v, s1) => run_reaction onFulfilled v s1
    | (Rejected e, s1) => (Rejected e, s1)
    | (Pending, s1) => (Pending, s1)
    end.

(** [p.catch(onRejected)]: a fulfilment passes through. *)
Definition Promise_catch (p : promise) (onRejected : continuation) : promise :=
  fun s =>
    match p s with
    | (Fulfilled v, s1) => (Fulfilled v, s1)
    | (Rejected e, s1) => run_reaction onRejected e s1
    | (Pending, s1) => (Pending, s1)
    end.

(** An [async] function whose body has no [await]: the body runs at the
    call, which returns a promise already settled by the body's completion. *)
Definition async (body : Callback) : Callback :=
  fun params s =>
    match body params s with
    | (Normal v, s1) => (Normal (VPromise (resolve v)), s1)
    | (Throw e, s1) => (Normal (VPromise (fun s2 => (Rejected e, s2))), s1)
    end.

(** ** safe.ts *)

Variable H : host.

(** [class NullError extends Error]: [super('null')], then
    [this.name = 'NullError'] and the prototype set to [NullError.prototype].
    [NullError] is the expression [new NullError()]. *)
Definition NullError : js val := construct CNullError "NullError" "null".

(** The engine's [TypeError] for a failed property read or call. *)
Definition TypeError (key : string) : js val :=
  construct CTypeError "TypeError" (type_error_text H key).

(** [typeof v[key] === 'function']. Reading a property of [null] or
    [undefined] throws; primitives, arrays and error instances carry neither
    [then] nor [catch]; a host promise carries both. *)
Definition typeof_function (v : val) (key : string) : js bool :=
  match v with
  | VUndefined | VNull => e <- TypeError key ;; throw e
  | VPromise _ => ret (String.eqb key "then" || String.eqb key "catch")
  | VForeign o => fun s => (Normal (is_function H s o key), s)
  | _ => ret false
  end.

(** The method call [recv[key](h)]: a TypeError unless [recv[key]] is a
    function. *)
Definition invoke (recv : val) (key : string) (h : continuation) : js val :=
  is_fn <- typeof_function recv key ;;
  match recv, is_fn with
  | VPromise p, true =>
      if String.eqb key "then" then ret (VPromise (Promise_then p h))
      else ret (VPromise (Promise_catch p h))
  | VForeign o, true => call H o key h
  | _, _ => e <- TypeError key ;; throw e
  end.

(** [export function x(callback, ...params)]. *)
Definition x (callback : Callback) (params : list val) : js val :=
  try (
    result <- callback params ;;
    is_async <- (if truthy result then typeof_function result "then"
                 else ret false) ;;
    if is_async then
      chained <- invoke result "then"
                   (fun value => ret (VArray [VNull; value])) ;;
      invoke chained "catch"
        (fun error =>
           if is_null error then
             e <- NullError ;; ret (VArray [e; VNull])
           else ret (VArray [error; VNull]))
    else ret (VArray [VNull; result])
  ) catch (fun error =>
    if is_null error then e <- NullError ;; ret (VArray [e; VNull])
    else ret (VArray [error; VNull])).

(** [export function w(callback)]: the returned arrow function. *)
Definition w (callback : Callback) : Callback :=
  fun params =>
    try (
      result <- callback params ;;
      is_async <- (if truthy result then typeof_function result "then"
                   else ret false) ;;
      if is_async then
        chained <- invoke result "then"
                     (fun value => ret (VArray [VNull; value])) ;;
        invoke chained "catch"
          (fun error =>
             if is_null error then
               e <- NullError ;; ret (VArray [e; VNull])
             else ret (VArray [error; VNull]))
      else ret (VArray [VNull; result])
    ) catch (fun error =>
      if is_null error then e <- NullError ;; ret (VArray [e; VNull])
      else ret (VArray [error; VNull])).

(** ** The paths of one invocation *)

(** The two continuations that [x] and [w] attach, named for the proofs. *)
Definition on_value : continuation :=
  fun value => ret (VArray [VNull; value]).

Definition on_error : continuation :=
  fun error =>
    if is_null error then e <- NullError ;; ret (VArray [e; VNull])
    else ret (VArray [error; VNull]).

(** The promise that [x] hands back for a host promise [p]. *)
Definition guarded (p : promise) : promise :=
  Promise_catch (Promise_then p on_value) on_error.

(** The object [new NullError()] builds in store [s], and the store after. *)
Definition null_error_at (s : store) : val :=
  VObject (Instance (next_ref s) CNullError "NullError" "null").

Definition bump (s : store) : store := Store (user s) (S (next_ref s)).

(** The tuple for a caught value [e], caught in store [s]. *)
Definition captured (e : val) (s : store) : completion val * store :=
  if is_null e then (Normal (VArray [null_error_at s; VNull]), bump s)
  else (Normal (VArray [e; VNull]), s).

(** A returned value that is an object of the caller's with a callable
    [then]: a thenable that is not a host promise. *)
Definition foreign_thenable (s : store) (r : val) : bool :=
  match r with
  | VForeign o => is_function H s o "then"
  | _ => false
  end.

(** The chain [o.then(...).catch(...)] over a thenable [o] of the
    caller's, with the two continuations of [x] and [w]. *)
Definition foreign_chain (o : foreign) : js val :=
  chained <- call H o "then" on_value ;;
  invoke chained "catch" on_error.

(** The asynchronous path of [x] and [w] for a returned value [r]. *)
Definition async_path (r : val) : js val :=
  try (chained <- invoke r "then" on_value ;;
       invoke chained "catch" on_error)
  catch on_error.

(** Pending-result detection in the words of the specification: the value
    is truthy and its [then] property is a function. *)
Definition pending_shape (s : store) (r : val) : bool :=
  truthy r &&
  match r with
  | VPromise _ => true
  | VForeign o => is_function H s o "then"
  | _ => false
  end.

(** ** Outcome Tuples *)

(** The Outcome Tuple of the data model: [[null, value]] on success,
    [[fault, null]] with a fault other than [null] on failure. *)
Inductive OutcomeTuple : val -> Prop :=
| Success value : OutcomeTuple (VArray [VNull; value])
| Failure fault : is_null fault = false -> OutcomeTuple (VArray [fault; VNull]).

(** [v] is the object that [new NullError()] builds in store [s]: an
    instance of NullError under the first unused reference, with the
    message ["null"]. *)
Definition is_new_NullError (s : store) (v : val) : Prop :=
  exists i,
    v = VObject i /\ ref i = next_ref s /\
    message i = "null" /\ name i = "NullError" /\
    instanceof v CNullError = true.

(** Exactly one of the two slots is [null]. *)
Definition exactly_one_null (t : val) : Prop :=
  exists fault value,
    t = VArray [fault; value] /\ is_null fault = negb (is_null value).

(** At most one slot is populated. *)
Definition never_both_populated (t : val) : Prop :=
  exists fault value,
    t = VArray [fault; value] /\ (is_null fault || is_null value) = true.

(** The tuple an invocation ends in: the array it returns, or what the
    promise it returns fulfils with. *)
Inductive yields : completion val * store -> val -> Prop :=
| yields_now elems s :
    yields (Normal (VArray elems), s) (VArray elems)
| yields_later q s s1 t s2 :
    q s1 = (Fulfilled t, s2) -> yields (Normal (VPromise q), s) t.

(** The promise [q] never rejects, stays pending only where [p] does, and
    fulfils with an Outcome Tuple wherever [p] settles. *)
Definition settles_safely (p q : promise) : Prop :=
  forall s,
    match fst (p s) with
    | Pending => fst (q s) = Pending
    | _ => exists t, fst (q s) = Fulfilled t /\ OutcomeTuple t
    end.

(** ** Statements of the specification that fail as worded *)

(** Nothing escapes: the result is a two-slot array, or a promise that
    does not reject. *)
Definition nothing_escapes (out : completion val * store) : Prop :=
  match fst out with
  | Normal (VArray [_; _]) => True
  | Normal (VPromise q) =>
      forall s, match fst (q s) with Rejected _ => False | _ => True end
  | _ => False
  end.

(** Every tuple an invocation ends in has exactly one null slot. *)
Definition mutual_exclusivity (callback : Callback) (params : list val)
    (s : store) : Prop :=
  forall t,
    yields (x callback params s) t \/ yields (w callback params s) t ->
    exactly_one_null t.

(** [w(w(callback))] returns the tuple of null and whatever [w(callback)]
    returns, tuple or promise. *)
Definition composes_as_tuple (callback : Callback) (params : list val)
    (s : store) : Prop :=
  forall v s1,
    w callback params s = (Normal v, s1) ->
    w (w callback) params s = (Normal (VArray [VNull; v]), s1).

End Model.

Arguments Normal {foreign world A} a.
Arguments Throw {foreign world A} e.
Arguments VUndefined {foreign world}.
Arguments VNull {foreign world}.
Arguments VBool {foreign world} b.
Arguments VNumber {foreign world} n.
Arguments VString {foreign world} s.
Arguments VArray {foreign world} elems.
Arguments VObject {foreign world} i.
Arguments VForeign {foreign world} o.

Notation "x <- m ;; k" := (bind m (fun x => k))
  (at level 61, m at next level, right associativity).

(** * The four executors of the earlier module

    The module that [x] and [w] replace exports one function per mode:
    [rx] and [rw] for synchronous callbacks, [px] and [pw] for asynchronous
    ones. The asynchronous pair are [async] functions that [await] the
    callback's result. *)

Section Executors.

Context {foreign world : Type}.

Notation "'try' body 'catch' handler" := (try_catch body handler)
  (at level 62, body at level 61, handler at level 61).
Abbreviation val := (@val foreign world).
Abbreviation store := (@store world).
Abbreviation js := (@js foreign world).
Abbreviation Callback := (@Callback foreign world).

Variable H : @host foreign world.

(** How the host promise that adopts a thenable of the caller's settles:
    the engine calls the object's [then] with its own resolving functions. *)
Variable adopt : foreign -> @promise foreign world.

(** [await operand], the [await] being reached in store [s]: a host
    promise is waited for, an object whose [then] is a function at that
    moment is adopted, and any other value is the result. *)
Definition await (s : store) (operand : val) : promise :=
  match operand with
  | VPromise p => p
  | VForeign o =>
      if is_function H s o "then" then adopt o
      else fun s1 => (Fulfilled operand, s1)
  | _ => fun s1 => (Fulfilled operand, s1)
  end.

(** How the promise of an [async] function settles on the completion of
    its body: a returned value resolves it, a thrown one rejects it. *)
Definition settle (c : completion val * store) : settlement val * store :=
  match c with
  | (Normal r, s) => await s r s
  | (Throw e, s) => (Rejected e, s)
  end.

(** The [async] function whose body is
    [try { const result = await operand; rest } catch (error) { handler }].
    The operand runs within the call, and so does the catch block when the
    operand throws; what follows the [await] is the job of the promise. *)
Definition async_try_await (operand : js val) (rest handler : val -> js val)
    : js val :=
  fun s =>
    match operand s with
    | (Throw error, s1) =>
        let (c, s2) := handler error s1 in
        (Normal (VPromise (fun s3 => settle (c, s3))), s2)
    | (Normal awaited, s1) =>
        (Normal
           (VPromise
              (fun s2 =>
                 match await s1 awaited s2 with
                 | (Fulfilled result, s3) =>
                     settle ((try rest result catch handler) s3)
                 | (Rejected error, s3) => settle (handler error s3)
                 | (Pending, s3) => (Pending, s3)
                 end)),
         s1)
    end.

(** [export const px = async (callback) => { ... }]. *)
Definition px (callback : Callback) : js val :=
  async_try_await (callback [])
    (fun result => ret (VArray [VNull; result]))
    (fun error =>
       if is_null error then e <- NullError ;; ret (VArray [e; VNull])
       else ret (VArray [error; VNull])).

(** [export const rx = (callback) => { ... }]. *)
Definition rx (callback : Callback) : js val :=
  try (
    result <- callback [] ;;
    ret (VArray [VNull; result])
  ) catch (fun error =>
    if is_null error then e <- NullError ;; ret (VArray [e; VNull])
    else ret (VArray [error; VNull])).

(** [export const pw = (callback) => async (...params) => { ... }]. *)
Definition pw (callback : Callback) : Callback :=
  fun params =>
    async_try_await (callback params)
      (fun result => ret (VArray [VNull; result]))
      (fun error =>
         if is_null error then e <- NullError ;; ret (VArray [e; VNull])
         else ret (VArray [error; VNull])).

(** [export const rw = (callback) => (...params) => { ... }]. *)
Definition rw (callback : Callback) : Callback :=
  fun params =>
    try (
      result <- callback params ;;
      ret (VArray [VNull; result])
    ) catch (fun error =>
      if is_null error then e <- NullError ;; ret (VArray [e; VNull])
      else ret (VArray [error; VNull])).

(** The tuple that [px] and [pw] end in once what they await has settled
    as [st] in store [s]. *)
Definition awaited_tuple (st : settlement val * store)
    : settlement val * store :=
  match st with
  | (Fulfilled result, s) => (Fulfilled (VArray [VNull; result]), s)
  | (Rejected error, s) =>
      (let (c, s1) := captured error s in
       match c with
       | Normal t => (Fulfilled t, s1)
       | Throw e => (Rejected e, s1)
       end)
  | (Pending, s) => (Pending, s)
  end.

(** [R] has no [catch] to call. *)
Definition lacks_catch (s : store) (R : val) : bool :=
  match R with
  | VPromise _ => false
  | VForeign o => negb (is_function H s o "catch")
  | _ => true
  end.

(** The callback never gives a reference back: it leaves the allocation
    counter where it was or further. *)
Definition keeps_references (callback : Callback) (params : list val)
    (s : store) : Prop :=
  next_ref s <= next_ref (snd (callback params s)).

End Executors.

(** The first version of the four executors, written before [NullError]
    existed: a thrown [null] becomes [new Error('null')]. *)
Module V1.

Section Executors.

Context {foreign world : Type}.

Notation "'try' body 'catch' handler" := (try_catch body handler)
  (at level 62, body at level 61, handler at level 61).
Abbreviation val := (@val foreign world).
Abbreviation store := (@store world).
Abbreviation js := (@js foreign world).
Abbreviation Callback := (@Callback foreign world).

Variable H : @host foreign world.
Variable adopt : foreign -> @promise foreign world.

(** [new Error('null')]. *)
Definition Error_null : js val :=
  construct CError "Error" "null".

(** [export const px = async (callback) => { ... }]. *)
Definition px (callback : Callback) : js val :=
  async_try_await H adopt (callback [])
    (fun result => ret (VArray [VNull; result]))
    (fun error =>
       if is_null error then e <- Error_null ;; ret (VArray [e; VNull])
       else ret (VArray [error; VNull])).

(** [export const rx = (callback) => { ... }]. *)
Definition rx (callback : Callback) : js val :=
  try (
    result <- callback [] ;;
    ret (VArray [VNull; result])
  ) catch (fun error =>
    if is_null error then e <- Error_null ;; ret (VArray [e; VNull])
    else ret (VArray [error; VNull])).

(** [export const pw = (callback) => async (...params) => { ... }]. *)
Definition pw (callback : Callback) : Callback :=
  fun params =>
    async_try_await H adopt (callback params)
      (fun result => ret (VArray [VNull; result]))
      (fun error =>
         if is_null error then e <- Error_null ;; ret (VArray [e; VNull])
         else ret (VArray [error; VNull])).

(** [export const rw = (callback) => (...params) => { ... }]. *)
Definition rw (callback : Callback) : Callback :=
  fun params =>
    try (
      result <- callback params ;;
      ret (VArray [VNull; result])
    ) catch (fun error =>
      if is_null error then e <- Error_null ;; ret (VArray [e; VNull])
      else ret (VArray [error; VNull])).

End Executors.

End V1.

(** ** Concrete callers *)

(** Four objects of a caller: [Boom] is [new Error("boom")], [Thenable] is
    [{ then() { return Link } }], [Link] is
    [{ catch() { return Promise.reject(Boom) } }] and [Bare] is
    [{ then() {} }]. *)
Inductive object :=
| Boom
| Thenable
| Link
| Bare.

Definition engine : @host object unit :=
  Host
    (fun _ o key =>
       match o with
       | Boom => false
       | Thenable | Bare => String.eqb key "then"
       | Link => String.eqb key "catch"
       end)
    (fun o key _ =>
       match o with
       | Boom | Bare => ret VUndefined
       | Thenable => ret (VForeign Link)
       | Link => ret (VPromise (fun s => (Rejected (VForeign Boom), s)))
       end)
    (fun key => "cannot call " ++ key).

Definition empty : @store unit := Store tt 0.

(** [() => 5], [() => null], [() => { throw null }],
    [() => { throw undefined }], [() => { throw Boom }],
    [() => Thenable] and [(a, b) => a + b]. *)
Definition returns_five : @Callback object unit :=
  fun _ => ret (VNumber (Int 5)).

Definition returns_null : @Callback object unit :=
  fun _ => ret VNull.

Definition throws_null : @Callback object unit :=
  fun _ => throw VNull.

Definition throws_undefined : @Callback object unit :=
  fun _ => throw VUndefined.

Definition throws_boom : @Callback object unit :=
  fun _ => throw (VForeign Boom).

Definition returns_thenable : @Callback object unit :=
  fun _ => ret (VForeign Thenable).

Definition add : @Callback object unit :=
  fun params =>
    match params with
    | [VNumber (Int a); VNumber (Int b)] => ret (VNumber (Int (a + b)))
    | _ => ret (VNumber NaN)
    end.

(** [(later) => later ? Promise.resolve(5) : 5]: asynchronous on some
    calls only. *)
Definition sometimes_async : @Callback object unit :=
  fun params =>
    match params with
    | [VBool true] => ret (VPromise (resolve (VNumber (Int 5))))
    | _ => ret (VNumber (Int 5))
    end.

(** The settlements of the promises of [async () => { throw null }],
    [async () => { throw Boom }], [async () => 5] and
    [async () => { throw undefined }]. *)
Definition rejected_null : @promise object unit :=
  fun s => (Rejected VNull, s).

Definition rejected_boom : @promise object unit :=
  fun s => (Rejected (VForeign Boom), s).

Definition fulfilled_five : @promise object unit :=
  fun s => (Fulfilled (VNumber (Int 5)), s).

Definition rejected_undefined : @promise object unit :=
  fun s => (Rejected VUndefined, s).

(** Two objects of another caller: [Oops] is [new Error("oops")] and
    [Deferred] is [{ then(onFulfilled) { onFulfilled(7) } }], a thenable
    without [catch] that fulfils with 7 and returns nothing. *)
Inductive thing :=
| Oops
| Deferred.

Definition runtime : @host thing unit :=
  Host
    (fun _ o key =>
       match o with
       | Oops => false
       | Deferred => String.eqb key "then"
       end)
    (fun o key onFulfilled =>
       match o with
       | Oops => ret VUndefined
       | Deferred => bind (onFulfilled (VNumber (Int 7)))
                          (fun _ => ret VUndefined)
       end)
    (fun key => "cannot call " ++ key).

(** The promise adopting [Deferred] fulfils with 7. *)
Definition runtime_adopt : thing -> @promise thing unit :=
  fun o s =>
    match o with
    | Oops => (Pending, s)
    | Deferred => (Fulfilled (VNumber (Int 7)), s)
    end.

(** [() => Deferred], [() => 7], [() => { throw null }] and
    [() => Promise.reject(null)] for this caller. *)
Definition returns_deferred : @Callback thing unit :=
  fun _ => ret (VForeign Deferred).

Definition returns_seven : @Callback thing unit :=
  fun _ => ret (VNumber (Int 7)).

Definition raises_null : @Callback thing unit :=
  fun _ => throw VNull.

Definition raises_oops : @Callback thing unit :=
  fun _ => throw (VForeign Oops).

Definition null_rejection : @promise thing unit :=
  fun s => (Rejected VNull, s).

Definition returns_null_rejection : @Callback thing unit :=
  fun _ => ret (VPromise null_rejection).

Definition start : @store unit := Store tt 0.

(** * Properties *)

Section Theory.

Context {foreign world : Type} (H : @host foreign world).

Implicit Types (callback : @Callback foreign world).
Implicit Types (params : list (@val foreign world)).
Implicit Types (s : @store world) (p q : @promise foreign world).
Implicit Types (e r t v : @val foreign world).

(** ** Exceptions *)

Lemma try_catch_throw {A} (body : @js foreign world A) handler s e s1 :
  body s = (Throw e, s1) -> try_catch body handler s = handler e s1.
Proof. intros E. unfold try_catch. rewrite E. reflexivity. Qed.

Lemma try_catch_normal {A} (body : @js foreign world A) handler s a s1 :
  body s = (Normal a, s1) -> try_catch body handler s = (Normal a, s1).
Proof. intros E. unfold try_catch. rewrite E. reflexivity. Qed.

Lemma try_catch_total {A} (body : @js foreign world A) handler :
  (forall e s, exists a s1, handler e s = (Normal a, s1)) ->
  forall s, exists a s1, try_catch body handler s = (Normal a, s1).
Proof.
  intros Hh s. unfold try_catch.
  destruct (body s) as [[a | e] s1]; [eauto | apply Hh].
Qed.

(** ** The catch block *)

Lemma on_error_captured e s : on_error e s = captured e s.
Proof. unfold on_error, captured. destruct (is_null e); reflexivity. Qed.

Lemma captured_spec e s :
  exists fault s1,
    captured e s = (Normal (VArray [fault; VNull]), s1) /\
    is_null fault = false.
Proof. unfold captured. destruct (is_null e) eqn:N; eauto. Qed.

Lemma null_error_at_new s :
  is_new_NullError s (@null_error_at foreign world s).
Proof. eexists. repeat split. Qed.

(** ** The paths of [x] *)

(** The body of [x], with its continuations named. *)
Lemma x_unfold callback params :
  x H callback params =
  try_catch
    (result <- callback params ;;
     is_async <- (if truthy result then typeof_function H result "then"
                  else ret false) ;;
     if is_async then
       chained <- invoke H result "then" on_value ;;
       invoke H chained "catch" on_error
     else ret (VArray [VNull; result]))
    on_error.
Proof. reflexivity. Qed.

Lemma invoke_foreign o key h s :
  is_function H s o key = true ->
  invoke H (VForeign o) key h s = call H o key h s.
Proof.
  intros T. unfold invoke, bind. cbn [typeof_function]. rewrite T.
  reflexivity.
Qed.

(** Run [x] up to the completion [E] of its callback. *)
Ltac enter E := rewrite x_unfold; unfold try_catch, bind; rewrite E.

(** Synchronous failure path. *)
Lemma x_throw callback params s e s1 :
  callback params s = (Throw e, s1) ->
  x H callback params s = captured e s1.
Proof. intros E. enter E. apply on_error_captured. Qed.

(** Pending-result detection decides between the two success paths. *)
Lemma x_detects callback params s r s1 :
  callback params s = (Normal r, s1) ->
  x H callback params s =
  if pending_shape H s1 r then async_path H r s1
  else (Normal (VArray [VNull; r]), s1).
Proof.
  intros E. unfold async_path, pending_shape. enter E.
  destruct r as [| | b | [z |] | str | | | |];
    cbn [truthy typeof_function ret andb]; try reflexivity.
  - destruct b; reflexivity.
  - destruct (negb (Z.eqb z 0)); reflexivity.
  - destruct (negb (String.eqb str "")); reflexivity.
  - destruct (is_function H s1 o "then"); reflexivity.
Qed.

(** Synchronous success path. *)
Lemma x_plain callback params s r s1 :
  callback params s = (Normal r, s1) ->
  pending_shape H s1 r = false ->
  x H callback params s = (Normal (VArray [VNull; r]), s1).
Proof. intros E P. rewrite (x_detects _ _ _ _ _ E), P. reflexivity. Qed.

(** Asynchronous paths over a host promise. *)
Lemma x_promise callback params s p s1 :
  callback params s = (Normal (VPromise p), s1) ->
  x H callback params s = (Normal (VPromise (guarded p)), s1).
Proof. intros E. enter E. reflexivity. Qed.

(** Asynchronous paths over a thenable of the caller's: its [then] is
    called with the success continuation, [catch] is called on what that
    returns, and whatever either call throws is captured. *)
Lemma x_foreign callback params s o s1 :
  callback params s = (Normal (VForeign o), s1) ->
  is_function H s1 o "then" = true ->
  x H callback params s =
  match foreign_chain H o s1 with
  | (Normal v, s2) => (Normal v, s2)
  | (Throw e, s2) => captured e s2
  end.
Proof.
  intros E T. enter E. cbn [truthy typeof_function]. rewrite T.
  rewrite (invoke_foreign _ _ _ _ T). unfold foreign_chain, bind.
  destruct (call H o "then" on_value s1) as [[chained | e] s2];
    [| apply on_error_captured].
  destruct (invoke H chained "catch" on_error s2) as [[v | e] s3];
    [reflexivity | apply on_error_captured].
Qed.

(** No exception leaves [x]. *)
Lemma x_total callback params s :
  exists v s1, x H callback params s = (Normal v, s1).
Proof.
  rewrite x_unfold. apply try_catch_total. intros e s0.
  rewrite on_error_captured.
  destruct (captured_spec e s0) as (fault & s1 & C & _). eauto.
Qed.

(** ** The guarded promise *)

Lemma guarded_fulfilled p s v s1 :
  p s = (Fulfilled v, s1) ->
  guarded p s = (Fulfilled (VArray [VNull; v]), s1).
Proof.
  intros E. unfold guarded, Promise_catch, Promise_then. rewrite E.
  reflexivity.
Qed.

Lemma guarded_rejected p s e s1 fault s2 :
  p s = (Rejected e, s1) ->
  captured e s1 = (Normal fault, s2) ->
  guarded p s = (Fulfilled fault, s2).
Proof.
  intros E C. unfold guarded, Promise_catch, Promise_then. rewrite E.
  unfold run_reaction. rewrite on_error_captured.
  unfold captured in *. destruct (is_null e); inversion C; reflexivity.
Qed.

Lemma guarded_pending p s s1 :
  p s = (Pending, s1) -> guarded p s = (Pending, s1).
Proof.
  intros E. unfold guarded, Promise_catch, Promise_then. rewrite E.
  reflexivity.
Qed.

Lemma guarded_safe p : settles_safely p (guarded p).
Proof.
  intros s. destruct (p s) as [[| v | e] s1] eqn:E; simpl.
  - rewrite (guarded_pending _ _ _ E). reflexivity.
  - rewrite (guarded_fulfilled _ _ _ _ E). eexists. split; [reflexivity |].
    apply Success.
  - destruct (captured_spec e s1) as (fault & s2 & C & N).
    rewrite (guarded_rejected _ _ _ _ _ _ E C).
    eexists. split; [reflexivity |]. apply Failure. exact N.
Qed.

Lemma guarded_yields_tuple p s1 t s2 :
  guarded p s1 = (Fulfilled t, s2) -> OutcomeTuple t.
Proof.
  intros G. pose proof (guarded_safe p s1) as S. rewrite G in S.
  simpl in S.
  destruct (fst (p s1)); [discriminate | |];
    destruct S as (t' & Ht & O); inversion Ht; subst; exact O.
Qed.

(** ** Outcome Tuples *)

Lemma OutcomeTuple_never_both t : OutcomeTuple t -> never_both_populated t.
Proof.
  intros [value | fault N]; eexists _, _; split; try reflexivity.
  simpl. apply orb_true_r.
Qed.

Lemma conforming_shape s r :
  foreign_thenable H s r = false ->
  pending_shape H s r = true ->
  exists p, r = VPromise p.
Proof.
  unfold pending_shape. destruct r; simpl; intros F P;
    try (rewrite andb_false_r in P); try discriminate.
  - eauto.
  - congruence.
Qed.

(** What [x] returns when the callback's result is no thenable of the
    caller's: a tuple at once, or the guarded promise. *)
Lemma x_conforming callback params s c s0 :
  callback params s = (c, s0) ->
  match c with
  | Normal r => foreign_thenable H s0 r = false
  | Throw _ => True
  end ->
  match c with
  | Throw e => x H callback params s = captured e s0
  | Normal (VPromise p) =>
      x H callback params s = (Normal (VPromise (guarded p)), s0)
  | Normal r => x H callback params s = (Normal (VArray [VNull; r]), s0)
  end.
Proof.
  intros E Hc. destruct c as [r | e]; [| exact (x_throw _ _ _ _ _ E)].
  destruct (pending_shape H s0 r) eqn:P.
  - destruct (conforming_shape _ _ Hc P) as [p ->].
    exact (x_promise _ _ _ _ _ E).
  - pose proof (x_plain _ _ _ _ _ E P) as X.
    destruct r; try exact X. discriminate.
Qed.

(** ** Properties of [x] and [w] *)

(** C1 (amended). [x] never raises, whatever the callback does. When the
    callback throws, or returns a value that is not a thenable of the
    caller's, [x] returns an Outcome Tuple at once, or, for a host promise
    [p], the guarded promise: it never rejects and it fulfils with an
    Outcome Tuple wherever [p] settles. When the callback returns a
    thenable of the caller's, [x] returns what the chain
    [then(...).catch(...)] over it returns, and the tuple of whatever the
    chain throws. *)
Theorem execute_never_raises callback params s c s0 :
  callback params s = (c, s0) ->
  (exists v s1, x H callback params s = (Normal v, s1)) /\
  (match c with
   | Normal r => foreign_thenable H s0 r = false
   | Throw _ => True
   end ->
   exists v s1,
     x H callback params s = (Normal v, s1) /\
     (OutcomeTuple v \/
      exists p, c = Normal (VPromise p) /\ v = VPromise (guarded p) /\
                settles_safely p (guarded p))) /\
  (forall o,
      c = Normal (VForeign o) ->
      is_function H s0 o "then" = true ->
      x H callback params s =
      match foreign_chain H o s0 with
      | (Normal v, s1) => (Normal v, s1)
      | (Throw e, s1) => captured e s1
      end).
Proof.
  intros E. split; [apply x_total | split].
  - intros Hc. pose proof (x_conforming _ _ _ _ _ E Hc) as X.
    destruct c as [r | e].
    + destruct r;
        try (eexists _, _; split; [exact X | left; apply Success]).
      eexists _, _. split; [exact X |]. right. eexists.
      repeat split. apply guarded_safe.
    + destruct (captured_spec e s0) as (fault & s1 & C & N).
      rewrite C in X. eexists _, _. split; [exact X |].
      left. apply Failure. exact N.
  - intros o -> T. exact (x_foreign _ _ _ _ _ E T).
Qed.

(** C2 (amended). When the callback's result is not a thenable of the
    caller's, the tuple that [x] or a wrapped callable ends in has a null
    fault slot beside the result (which may itself be null), or a fault
    other than null beside a null value: the two slots are never both
    populated. *)
Theorem slots_never_both_populated callback params s c s0 t :
  callback params s = (c, s0) ->
  match c with
  | Normal r => foreign_thenable H s0 r = false
  | Throw _ => True
  end ->
  yields (x H callback params s) t \/ yields (w H callback params s) t ->
  OutcomeTuple t /\ never_both_populated t /\
  (forall r,
      c = Normal r -> pending_shape H s0 r = false ->
      t = VArray [VNull; r]).
Proof.
  intros E Hc Y.
  assert (Y' : yields (x H callback params s) t) by (destruct Y; assumption).
  clear Y.
  assert (O : OutcomeTuple t).
  { pose proof (x_conforming _ _ _ _ _ E Hc) as X.
    destruct c as [r | e].
    - destruct r; rewrite X in Y'; inversion Y'; subst; try apply Success.
      eapply guarded_yields_tuple. eassumption.
    - destruct (captured_spec e s0) as (fault & s1 & C & N).
      rewrite X, C in Y'. inversion Y'; subst. apply Failure. exact N. }
  split; [exact O | split; [apply OutcomeTuple_never_both; exact O |]].
  intros r -> P. rewrite (x_plain _ _ _ _ _ E P) in Y'.
  inversion Y'. reflexivity.
Qed.

(** C3. A callback that throws [null], or whose promise rejects with
    [null], ends in the tuple whose fault slot is a new NullError with the
    message ["null"] and whose value slot is null. *)
Theorem null_becomes_NullError callback params s :
  (forall s1,
      callback params s = (Throw VNull, s1) ->
      exists fault,
        x H callback params s = (Normal (VArray [fault; VNull]), bump s1) /\
        is_new_NullError s1 fault) /\
  (forall p s1,
      callback params s = (Normal (VPromise p), s1) ->
      exists q,
        x H callback params s = (Normal (VPromise q), s1) /\
        forall s2 s3,
          p s2 = (Rejected VNull, s3) ->
          exists fault,
            q s2 = (Fulfilled (VArray [fault; VNull]), bump s3) /\
            is_new_NullError s3 fault).
Proof.
  split.
  - intros s1 E. exists (null_error_at s1). split.
    + exact (x_throw _ _ _ _ _ E).
    + apply null_error_at_new.
  - intros p s1 E. exists (guarded p).
    split; [exact (x_promise _ _ _ _ _ E) |].
    intros s2 s3 R. exists (null_error_at s3). split.
    + exact (guarded_rejected _ _ _ _ _ _ R eq_refl).
    + apply null_error_at_new.
Qed.

(** C4. A callback that throws a value [e] other than [null], or whose
    promise rejects with it, ends in the tuple whose fault slot is [e]
    itself and whose value slot is null; the store is left as the callback
    or the promise left it. *)
Theorem fault_passes_through callback params s e :
  is_null e = false ->
  (forall s1,
      callback params s = (Throw e, s1) ->
      x H callback params s = (Normal (VArray [e; VNull]), s1)) /\
  (forall p s1,
      callback params s = (Normal (VPromise p), s1) ->
      exists q,
        x H callback params s = (Normal (VPromise q), s1) /\
        forall s2 s3,
          p s2 = (Rejected e, s3) ->
          q s2 = (Fulfilled (VArray [e; VNull]), s3)).
Proof.
  intros N.
  assert (C : forall s1, captured e s1 = (Normal (VArray [e; VNull]), s1)).
  { intros s1. unfold captured. rewrite N. reflexivity. }
  split.
  - intros s1 E. rewrite (x_throw _ _ _ _ _ E). apply C.
  - intros p s1 E. exists (guarded p).
    split; [exact (x_promise _ _ _ _ _ E) |].
    intros s2 s3 R. exact (guarded_rejected _ _ _ _ _ _ R (C s3)).
Qed.

(** C5. The callable returned by [w(callback)], called with [params],
    does what [x(callback, ...params)] does: same result and same store,
    on every call. *)
Theorem wrap_is_execute callback params s :
  w H callback params s = x H callback params s.
Proof. unfold w, x. reflexivity. Qed.

(** C6 (amended). Wrapping a wrapped callback adds one layer and
    flattens nothing. When the inner callable returns a tuple [v] at once,
    the outer one returns [[null, v]] at once. When the inner callable
    returns a host promise [P], the outer one returns the guarded promise
    of [P], which fulfils with [[null, t]] wherever [P] fulfils with [t]. *)
Theorem wrap_twice callback params s v s1 :
  w H callback params s = (Normal v, s1) ->
  (forall elems,
      v = VArray elems ->
      w H (w H callback) params s = (Normal (VArray [VNull; v]), s1)) /\
  (forall P,
      v = VPromise P ->
      w H (w H callback) params s = (Normal (VPromise (guarded P)), s1) /\
      forall s2 t s3,
        P s2 = (Fulfilled t, s3) ->
        guarded P s2 = (Fulfilled (VArray [VNull; t]), s3)).
Proof.
  intros E. split.
  - intros elems ->.
    change (x H (w H callback) params s =
            (Normal (VArray [VNull; VArray elems]), s1)).
    apply (x_plain _ _ _ _ _ E). reflexivity.
  - intros P ->. split.
    + exact (x_promise _ _ _ _ _ E).
    + intros s2 t s3. apply guarded_fulfilled.
Qed.

(** C7. A callback that throws before it returns ends at once in the
    tuple of the caught value and null, for [x] and for a wrapped callable
    alike: the fault is the thrown value, or a new NullError when that
    value is null, and nothing is chained even when the thrown value is
    itself a promise. *)
Theorem sync_raise_returns_at_once callback params s e s1 :
  callback params s = (Throw e, s1) ->
  exists fault s2,
    x H callback params s = (Normal (VArray [fault; VNull]), s2) /\
    w H callback params s = (Normal (VArray [fault; VNull]), s2) /\
    is_null fault = false /\
    (if is_null e then is_new_NullError s1 fault /\ s2 = bump s1
     else fault = e /\ s2 = s1).
Proof.
  intros E. pose proof (x_throw _ _ _ _ _ E) as X. unfold captured in X.
  destruct (is_null e) eqn:N; eexists _, _;
    (split; [exact X | split; [exact X |]]).
  - repeat split. apply null_error_at_new.
  - repeat split. exact N.
Qed.

(** C8. [x(() => 5)] is the tuple [[null, 5]] at once, and
    [x(async () => 5)] is a promise that fulfils with [[null, 5]]. *)
Theorem sync_async_transparency s :
  x H (fun _ => ret (VNumber (Int 5))) [] s =
  (Normal (VArray [VNull; VNumber (Int 5)]), s) /\
  exists q,
    x H (async (fun _ => ret (VNumber (Int 5)))) [] s =
    (Normal (VPromise q), s) /\
    forall s1, q s1 = (Fulfilled (VArray [VNull; VNumber (Int 5)]), s1).
Proof.
  split; [reflexivity |]. eexists. split; [reflexivity |].
  intros s1. reflexivity.
Qed.

(** C9. Only [null] is replaced. A callback that throws [undefined], or
    any other falsy value that is not null, or whose promise rejects with
    one, ends in the tuple that holds this very value in its fault slot,
    for [x] and for a wrapped callable alike; no NullError is built. *)
Theorem undefined_is_kept callback params s e :
  truthy e = false ->
  is_null e = false ->
  instanceof e CNullError = false /\
  (forall s1,
      callback params s = (Throw e, s1) ->
      x H callback params s = (Normal (VArray [e; VNull]), s1) /\
      w H callback params s = (Normal (VArray [e; VNull]), s1)) /\
  (forall p s1,
      callback params s = (Normal (VPromise p), s1) ->
      exists q,
        x H callback params s = (Normal (VPromise q), s1) /\
        w H callback params s = (Normal (VPromise q), s1) /\
        forall s2 s3,
          p s2 = (Rejected e, s3) ->
          q s2 = (Fulfilled (VArray [e; VNull]), s3)).
Proof.
  intros T N.
  assert (C : forall s1, captured e s1 = (Normal (VArray [e; VNull]), s1)).
  { intros s1. unfold captured. rewrite N. reflexivity. }
  split; [| split].
  - destruct e; try reflexivity; discriminate.
  - intros s1 E. change (w H callback params s) with (x H callback params s).
    rewrite (x_throw _ _ _ _ _ E), C. split; reflexivity.
  - intros p s1 E. exists (guarded p).
    change (w H callback params s) with (x H callback params s).
    rewrite (x_promise _ _ _ _ _ E). split; [| split]; try reflexivity.
    intros s2 s3 R. exact (guarded_rejected _ _ _ _ _ _ R (C s3)).
Qed.

(** C10. A returned value takes the asynchronous path exactly when it is
    truthy and its [then] is a function, in [x] and in a wrapped callable:
    a host promise is guarded, a thenable of the caller's has its [then]
    called with the success continuation, and every other value, the falsy
    ones among them, goes straight into the value slot. *)
Theorem pending_detection callback params s r s1 :
  callback params s = (Normal r, s1) ->
  (x H callback params s =
   if pending_shape H s1 r then async_path H r s1
   else (Normal (VArray [VNull; r]), s1)) /\
  (w H callback params s =
   if pending_shape H s1 r then async_path H r s1
   else (Normal (VArray [VNull; r]), s1)) /\
  (truthy r = false ->
   pending_shape H s1 r = false /\
   x H callback params s = (Normal (VArray [VNull; r]), s1)) /\
  (forall p,
      r = VPromise p ->
      pending_shape H s1 r = true /\
      x H callback params s = (Normal (VPromise (guarded p)), s1)) /\
  (forall o,
      r = VForeign o ->
      is_function H s1 o "then" = true ->
      pending_shape H s1 r = true /\
      x H callback params s =
      match foreign_chain H o s1 with
      | (Normal v, s2) => (Normal v, s2)
      | (Throw e, s2) => captured e s2
      end) /\
  (truthy (@VNull foreign world) = false /\
   truthy (@VUndefined foreign world) = false /\
   truthy (@VNumber foreign world (Int 0)) = false /\
   truthy (@VString foreign world "") = false /\
   truthy (@VBool foreign world false) = false).
Proof.
  intros E.
  assert (F : truthy r = false -> pending_shape H s1 r = false).
  { intros T. unfold pending_shape. rewrite T. reflexivity. }
  split; [exact (x_detects _ _ _ _ _ E) |].
  split; [exact (x_detects _ _ _ _ _ E) |].
  split; [| split; [| split]].
  - intros T. split; [exact (F T) | exact (x_plain _ _ _ _ _ E (F T))].
  - intros p ->. split; [reflexivity | exact (x_promise _ _ _ _ _ E)].
  - intros o -> T. split; [exact T | exact (x_foreign _ _ _ _ _ E T)].
  - repeat split.
Qed.

End Theory.

(** * The executors, and more about [x] and [w] *)

Section ExecutorTheory.

Context {foreign world : Type} (H : @host foreign world).
Context (adopt : foreign -> @promise foreign world).

Implicit Types (callback : @Callback foreign world).
Implicit Types (params : list (@val foreign world)).
Implicit Types (s : @store world) (p q : @promise foreign world).
Implicit Types (e r t v : @val foreign world).

(** ** The synchronous pair *)

Lemma rw_throw callback params s e s1 :
  callback params s = (Throw e, s1) ->
  rw callback params s = captured e s1.
Proof.
  intros E. unfold rw, try_catch, bind. rewrite E.
  apply on_error_captured.
Qed.

Lemma rw_normal callback params s r s1 :
  callback params s = (Normal r, s1) ->
  rw callback params s = (Normal (VArray [VNull; r]), s1).
Proof. intros E. unfold rw, try_catch, bind. rewrite E. reflexivity. Qed.

(** ** The asynchronous pair *)

(** The body of [pw], with its continuations named. *)
Lemma pw_unfold callback params :
  pw H adopt callback params =
  async_try_await H adopt (callback params) on_value on_error.
Proof. reflexivity. Qed.

Lemma pw_throw callback params s e s1 fault s2 :
  callback params s = (Throw e, s1) ->
  captured e s1 = (Normal (VArray [fault; VNull]), s2) ->
  pw H adopt callback params s =
  (Normal (VPromise (fun s3 => (Fulfilled (VArray [fault; VNull]), s3))), s2).
Proof.
  intros E C. rewrite pw_unfold. unfold async_try_await. rewrite E.
  rewrite on_error_captured, C. reflexivity.
Qed.

Lemma pw_normal callback params s r s1 :
  callback params s = (Normal r, s1) ->
  exists q,
    pw H adopt callback params s = (Normal (VPromise q), s1) /\
    forall s2, q s2 = awaited_tuple (await H adopt s1 r s2).
Proof.
  intros E. rewrite pw_unfold. unfold async_try_await. rewrite E.
  eexists. split; [reflexivity |]. intros s2. cbv beta.
  destruct (await H adopt s1 r s2) as [[| result | error] s3];
    [reflexivity | reflexivity |].
  unfold awaited_tuple. rewrite on_error_captured.
  destruct (captured_spec error s3) as (fault & s4 & C & _).
  rewrite C. reflexivity.
Qed.

Lemma awaited_tuple_safe (st : settlement (@val foreign world) * store) :
  match fst (awaited_tuple st) with
  | Rejected _ => False
  | Fulfilled t => OutcomeTuple t
  | Pending => fst st = Pending
  end.
Proof.
  destruct st as [[| result | error] s]; simpl.
  - reflexivity.
  - apply Success.
  - destruct (captured_spec error s) as (fault & s1 & C & N).
    rewrite C. simpl. apply Failure. exact N.
Qed.

Lemma awaited_tuple_guarded p s : awaited_tuple (p s) = guarded p s.
Proof.
  destruct (p s) as [[| result | error] s1] eqn:E.
  - symmetry. exact (guarded_pending _ _ _ E).
  - symmetry. exact (guarded_fulfilled _ _ _ _ E).
  - destruct (captured_spec error s1) as (fault & s2 & C & _).
    rewrite (guarded_rejected _ _ _ _ _ _ E C). simpl. rewrite C.
    reflexivity.
Qed.

(** ** Properties *)

(** X1. [rw], and [rx] which is [rw] without arguments, never chain: for
    every callback they return an Outcome Tuple at once, and a returned
    promise or thenable goes into the value slot as it is. *)
Theorem rw_never_chains callback params s :
  (exists t s1, rw callback params s = (Normal t, s1) /\ OutcomeTuple t) /\
  (forall r s0,
      callback params s = (Normal r, s0) ->
      rw callback params s = (Normal (VArray [VNull; r]), s0)) /\
  rx callback s = rw callback [] s.
Proof.
  split; [| split].
  - destruct (callback params s) as [[r | e] s0] eqn:E.
    + rewrite (rw_normal _ _ _ _ _ E). eexists _, _.
      split; [reflexivity | apply Success].
    + rewrite (rw_throw _ _ _ _ _ E).
      destruct (captured_spec e s0) as (fault & s1 & C & N).
      rewrite C. eexists _, _. split; [reflexivity | apply Failure; exact N].
  - intros r s0 E. exact (rw_normal _ _ _ _ _ E).
  - reflexivity.
Qed.

(** X2. Where the callback throws, or returns a value that is not
    pending-shaped, [x] and [w] do what [rw] does: same tuple, same
    store. *)
Theorem x_is_rw_without_pending callback params s c s0 :
  callback params s = (c, s0) ->
  match c with
  | Normal r => pending_shape H s0 r = false
  | Throw _ => True
  end ->
  x H callback params s = rw callback params s /\
  w H callback params s = rw callback params s.
Proof.
  intros E P.
  assert (X : x H callback params s = rw callback params s).
  { destruct c as [r | e].
    - rewrite (x_plain H _ _ _ _ _ E P), (rw_normal _ _ _ _ _ E).
      reflexivity.
    - rewrite (x_throw H _ _ _ _ _ E), (rw_throw _ _ _ _ _ E).
      reflexivity. }
  split; exact X.
Qed.

(** X3. [pw], and [px] which is [pw] without arguments, return a promise
    for every callback, also for one that throws before it returns. That
    promise never rejects, whatever is awaited, a thenable of the caller's
    included; it fulfils with an Outcome Tuple, and it stays pending only
    while what the callback returned is pending. *)
Theorem pw_never_rejects callback params s :
  (exists q s1,
      pw H adopt callback params s = (Normal (VPromise q), s1) /\
      forall s2,
        match fst (q s2) with
        | Rejected _ => False
        | Fulfilled t => OutcomeTuple t
        | Pending =>
            exists r s0,
              callback params s = (Normal r, s0) /\
              fst (await H adopt s0 r s2) = Pending
        end) /\
  px H adopt callback s = pw H adopt callback [] s.
Proof.
  split; [| reflexivity].
  destruct (callback params s) as [[r | e] s0] eqn:E.
  - destruct (pw_normal _ _ _ _ _ E) as (q & Hq & Hs).
    exists q, s0. split; [exact Hq |]. intros s2. rewrite Hs.
    pose proof (awaited_tuple_safe (await H adopt s0 r s2)) as A.
    destruct (fst (awaited_tuple (await H adopt s0 r s2)));
      [eauto | exact A | exact A].
  - destruct (captured_spec e s0) as (fault & s1 & C & N).
    rewrite (pw_throw _ _ _ _ _ _ _ E C). eexists _, _.
    split; [reflexivity |]. intros s2. simpl. apply Failure. exact N.
Qed.

(** X4. Where the callback's result is not a thenable of the caller's,
    the promise of [pw] settles exactly as awaiting the result of [x]
    does, and both leave the same store behind the call. *)
Theorem pw_settles_as_awaited_x callback params s c s0 :
  callback params s = (c, s0) ->
  match c with
  | Normal r => foreign_thenable H s0 r = false
  | Throw _ => True
  end ->
  exists v q s1,
    x H callback params s = (Normal v, s1) /\
    pw H adopt callback params s = (Normal (VPromise q), s1) /\
    forall s2, q s2 = await H adopt s1 v s2.
Proof.
  intros E Hc. pose proof (x_conforming H _ _ _ _ _ E Hc) as X.
  destruct c as [r | e].
  - destruct (pw_normal _ _ _ _ _ E) as (q & Hq & Hs).
    destruct r; try (eexists _, q, s0; split; [exact X |];
      split; [exact Hq |]; intros s2; rewrite Hs; reflexivity).
    + eexists _, q, s0. split; [exact X |]. split; [exact Hq |].
      intros s2. rewrite Hs. simpl. apply awaited_tuple_guarded.
    + eexists _, q, s0. split; [exact X |]. split; [exact Hq |].
      intros s2. rewrite Hs. simpl in *. rewrite Hc. reflexivity.
  - destruct (captured_spec e s0) as (fault & s1 & C & N).
    rewrite C in X. rewrite (pw_throw _ _ _ _ _ _ _ E C).
    eexists _, _, _. split; [exact X |]. split; [reflexivity |].
    intros s2. reflexivity.
Qed.

(** X5. The test [fault === null] is exact. Where the callback's result
    is not a thenable of the caller's, the fault slot of the tuple that [x]
    returns is null exactly when the callback returned, and the value slot
    then holds what it returned; the same holds of the tuple its promise
    fulfils with, against the settlement of the callback's promise. *)
Theorem fault_is_null_iff_success callback params s c s0 :
  callback params s = (c, s0) ->
  match c with
  | Normal r => foreign_thenable H s0 r = false
  | Throw _ => True
  end ->
  (forall fault value s1,
      x H callback params s = (Normal (VArray [fault; value]), s1) ->
      (is_null fault = true <-> exists r, c = Normal r) /\
      (forall r, c = Normal r -> value = r) /\
      (forall e, c = Throw e -> value = VNull)) /\
  (forall q s1 s2 fault value s3,
      x H callback params s = (Normal (VPromise q), s1) ->
      q s2 = (Fulfilled (VArray [fault; value]), s3) ->
      exists p,
        c = Normal (VPromise p) /\
        (is_null fault = true <-> exists r, fst (p s2) = Fulfilled r) /\
        (forall r, fst (p s2) = Fulfilled r -> value = r) /\
        (forall e, fst (p s2) = Rejected e -> value = VNull)).
Proof.
  intros E Hc. pose proof (x_conforming H _ _ _ _ _ E Hc) as X. split.
  - intros fault value s1 R. rewrite R in X. destruct c as [r | e].
    + assert (V : fault = VNull /\ value = r).
      { destruct r; inversion X; split; reflexivity. }
      destruct V as [-> ->]. repeat split; eauto.
      * intros r' Er. inversion Er. reflexivity.
      * intros e Ee. discriminate.
    + destruct (captured_spec e s0) as (f & s2 & C & N).
      rewrite C in X. inversion X; subst. repeat split.
      * intros Nf. congruence.
      * intros [r Er]. discriminate.
      * intros r Er. discriminate.
  - intros q s1 s2 fault value s3 R Q. rewrite R in X.
    destruct c as [r | e].
    + destruct r as [| | | | | | | p |]; try discriminate.
      inversion X; subst. exists p. split; [reflexivity |].
      destruct (p s2) as [[| result | error] s4] eqn:P; simpl.
      * rewrite (guarded_pending _ _ _ P) in Q. discriminate.
      * rewrite (guarded_fulfilled _ _ _ _ P) in Q. inversion Q; subst.
        repeat split; eauto; intros; congruence.
      * destruct (captured_spec error s4) as (f & s5 & C & N).
        rewrite (guarded_rejected _ _ _ _ _ _ P C) in Q.
        inversion Q; subst. repeat split; try congruence.
        intros [r Er]. discriminate.
    + destruct (captured_spec e s0) as (f & s4 & C & N).
      rewrite C in X. discriminate.
Qed.


(** X7. A thenable of the caller's whose [then] returns a value with no
    [catch] to call makes [x] return at once: the fault is a new TypeError
    of the engine, not a NullError, and whatever the thenable would have
    delivered is lost. *)
Theorem thenable_without_catch callback params s o s1 R s2 :
  callback params s = (Normal (VForeign o), s1) ->
  is_function H s1 o "then" = true ->
  call H o "then" on_value s1 = (Normal R, s2) ->
  lacks_catch H s2 R = true ->
  exists i,
    x H callback params s = (Normal (VArray [VObject i; VNull]), bump s2) /\
    proto i = CTypeError /\ ref i = next_ref s2 /\
    instanceof (@VObject foreign world i) CNullError = false.
Proof.
  intros E T C L.
  exists (Instance (next_ref s2) CTypeError "TypeError"
            (type_error_text H "catch")).
  split; [| repeat split].
  rewrite (x_foreign H _ _ _ _ _ E T). unfold foreign_chain, bind.
  rewrite C. unfold invoke, bind.
  destruct R; try reflexivity; simpl in L; try discriminate.
  cbn [typeof_function]. apply negb_true_iff in L. rewrite L. reflexivity.
Qed.

(** X8. Every thrown null gets a NullError of its own. Of two calls of
    [x] in a row whose callbacks throw null, the second never giving a
    reference back, the two faults are distinct objects. *)
Theorem every_null_has_its_NullError cb1 a1 cb2 a2 s s1 s2 :
  cb1 a1 s = (Throw VNull, s1) ->
  cb2 a2 (bump s1) = (Throw VNull, s2) ->
  keeps_references cb2 a2 (bump s1) ->
  exists i1 i2,
    x H cb1 a1 s = (Normal (VArray [VObject i1; VNull]), bump s1) /\
    x H cb2 a2 (bump s1) = (Normal (VArray [VObject i2; VNull]), bump s2) /\
    ref i1 < ref i2.
Proof.
  intros E1 E2 K. unfold keeps_references in K. rewrite E2 in K.
  eexists _, _. split; [exact (x_throw H _ _ _ _ _ E1) |].
  split; [exact (x_throw H _ _ _ _ _ E2) |]. exact K.
Qed.

(** X9. The first version of [rw], and of [rx], agrees with the later one
    on every callback that does not throw null. For a thrown null both
    allocate one object with the message ["null"], the first version a
    plain Error that no [instanceof NullError] test recognises. *)
Theorem first_version_differs_on_null_only callback params s c s0 :
  callback params s = (c, s0) ->
  (match c with
   | Throw e => is_null e = false
   | Normal _ => True
   end ->
   V1.rw callback params s = rw callback params s) /\
  (c = Throw VNull ->
   exists old new,
     V1.rw callback params s =
     (Normal (VArray [VObject old; VNull]), bump s0) /\
     rw callback params s =
     (Normal (VArray [VObject new; VNull]), bump s0) /\
     ref old = ref new /\ message old = message new /\
     name old = "Error" /\ name new = "NullError" /\
     instanceof (@VObject foreign world old) CError = true /\
     instanceof (@VObject foreign world old) CNullError = false /\
     instanceof (@VObject foreign world new) CError = true /\
     instanceof (@VObject foreign world new) CNullError = true) /\
  V1.rx callback s = V1.rw callback [] s.
Proof.
  intros E. split; [| split].
  - intros N. unfold V1.rw, rw, try_catch, bind. rewrite E.
    destruct c as [r | e]; [reflexivity |]. rewrite N. reflexivity.
  - intros ->. eexists _, _. unfold V1.rw, rw, try_catch, bind.
    rewrite E. simpl. repeat split.
  - reflexivity.
Qed.

(** X10. With the first version of [pw], and of [px], a callback that
    throws null, or whose promise rejects with null, ends in a promise
    fulfilled with the tuple whose fault is a plain Error with the message
    ["null"]. *)
Theorem first_version_async_null callback params s :
  (forall s1,
      callback params s = (Throw VNull, s1) ->
      exists q,
        V1.pw H adopt callback params s = (Normal (VPromise q), bump s1) /\
        forall s2,
          q s2 =
          (Fulfilled
             (VArray [VObject (Instance (next_ref s1) CError "Error" "null");
                      VNull]),
           s2)) /\
  (forall p s1,
      callback params s = (Normal (VPromise p), s1) ->
      exists q,
        V1.pw H adopt callback params s = (Normal (VPromise q), s1) /\
        forall s2 s3,
          p s2 = (Rejected VNull, s3) ->
          q s2 =
          (Fulfilled
             (VArray [VObject (Instance (next_ref s3) CError "Error" "null");
                      VNull]),
           bump s3)) /\
  V1.px H adopt callback s = V1.pw H adopt callback [] s.
Proof.
  split; [| split].
  - intros s1 E. unfold V1.pw, async_try_await. rewrite E. simpl.
    eexists. split; [reflexivity |]. intros s2. reflexivity.
  - intros p s1 E. unfold V1.pw, async_try_await. rewrite E.
    eexists. split; [reflexivity |]. intros s2 s3 R. simpl.
    rewrite R. reflexivity.
  - reflexivity.
Qed.

End ExecutorTheory.

(** * Concrete runs *)

(** Scenario C: [x(() => { throw null })]. *)
Example scenario_C :
  x engine throws_null [] empty =
  (Normal (VArray [VObject (Instance 0 CNullError "NullError" "null"); VNull]),
   Store tt 1).
Proof. reflexivity. Qed.

(** Scenario D: [await x(async () => { throw Boom })]. *)
Example scenario_D :
  exists q,
    x engine (async throws_boom) [] empty = (Normal (VPromise q), empty) /\
    q empty = (Fulfilled (VArray [VForeign Boom; VNull]), empty).
Proof. eexists. split; reflexivity. Qed.

(** Scenario E: [w((a, b) => a + b)(2, 3)]. *)
Example scenario_E :
  w engine add [VNumber (Int 2); VNumber (Int 3)] empty =
  (Normal (VArray [VNull; VNumber (Int 5)]), empty).
Proof. reflexivity. Qed.

(** Detection is per call: the same wrapped callable returns a tuple on
    one call and a promise on the next. *)
Example detection_per_call :
  w engine sometimes_async [VBool false] empty =
  (Normal (VArray [VNull; VNumber (Int 5)]), empty) /\
  exists q,
    w engine sometimes_async [VBool true] empty =
    (Normal (VPromise q), empty) /\
    q empty = (Fulfilled (VArray [VNull; VNumber (Int 5)]), empty).
Proof. split; [reflexivity |]. eexists. split; reflexivity. Qed.

(** A doubly wrapped [async () => { throw Boom }]: the outer layer
    succeeds with the inner tuple. *)
Example wrap_twice_rejecting :
  exists q,
    w engine (w engine (async throws_boom)) [] empty =
    (Normal (VPromise q), empty) /\
    q empty =
    (Fulfilled (VArray [VNull; VArray [VForeign Boom; VNull]]), empty).
Proof. eexists. split; reflexivity. Qed.

(** [x(() => { throw Promise.resolve(5) })]: a thrown promise is a fault
    like any other, and nothing is chained on it. *)
Example thrown_promise_is_a_fault :
  x engine (fun _ => throw (VPromise fulfilled_five)) [] empty =
  (Normal (VArray [VPromise fulfilled_five; VNull]), empty).
Proof. reflexivity. Qed.

(** A thenable whose [then] returns [undefined]: reading [catch] off it
    throws, and the engine's TypeError is captured at once. *)
Example chain_type_error :
  x engine (fun _ => ret (VForeign Bare)) [] empty =
  (Normal (VArray [VObject (Instance 0 CTypeError "TypeError"
                              "cannot call catch");
                   VNull]),
   Store tt 1).
Proof. reflexivity. Qed.

(** ** Counterexamples *)

(** C1 as worded fails: for the callback that returns [Thenable], [x]
    returns what [Link.catch] returns, a promise that rejects. *)
Lemma thenable_rejection_escapes :
  ~ nothing_escapes (x engine returns_thenable [] empty).
Proof.
  unfold nothing_escapes. simpl. intros Hn. exact (Hn empty).
Qed.

(** C2 as worded fails: [x(() => null)] is [[null, null]]. *)
Lemma null_result_both_null :
  ~ mutual_exclusivity engine returns_null [] empty.
Proof.
  intros Hm.
  destruct (Hm (VArray [VNull; VNull])) as (fault & value & Et & Hn).
  - left. apply yields_now.
  - inversion Et; subst. discriminate.
Qed.

(** C6 as worded fails: for [async () => 5] the doubly wrapped callable
    returns a promise, not a tuple around the inner promise. *)
Lemma wrap_twice_async_is_promise :
  ~ composes_as_tuple engine (async returns_five) [] empty.
Proof.
  intros Hc. specialize (Hc _ _ eq_refl). discriminate.
Qed.

(** ** The theorems at concrete callers *)

Lemma execute_never_raises_witness :
  async throws_null [] empty = (Normal (VPromise rejected_null), empty) /\
  foreign_thenable engine empty (VPromise rejected_null) = false /\
  exists v s1,
    x engine (async throws_null) [] empty = (Normal v, s1) /\
    (OutcomeTuple v \/
     exists p,
       @Normal object unit val (VPromise rejected_null) =
       Normal (VPromise p) /\
       v = VPromise (guarded p) /\ settles_safely p (guarded p)).
Proof.
  split; [reflexivity |]. split; [reflexivity |].
  exact (proj1 (proj2 (execute_never_raises engine (async throws_null) []
                         empty _ _ eq_refl)) eq_refl).
Defined.

Lemma slots_never_both_populated_witness :
  returns_null [] empty = (Normal VNull, empty) /\
  foreign_thenable engine empty VNull = false /\
  yields (x engine returns_null [] empty) (VArray [VNull; VNull]) /\
  OutcomeTuple (VArray [@VNull object unit; VNull]) /\
  never_both_populated (VArray [@VNull object unit; VNull]).
Proof.
  assert (Y : yields (x engine returns_null [] empty)
                (VArray [VNull; VNull])) by apply yields_now.
  pose proof (slots_never_both_populated engine returns_null [] empty
                (Normal VNull) empty _ eq_refl eq_refl (or_introl Y)) as T.
  repeat split; try exact Y; apply T.
Defined.

Lemma null_becomes_NullError_witness :
  (throws_null [] empty = (Throw VNull, empty) /\
   exists fault,
     x engine throws_null [] empty =
     (Normal (VArray [fault; VNull]), bump empty) /\
     is_new_NullError empty fault) /\
  (async throws_null [] empty = (Normal (VPromise rejected_null), empty) /\
   rejected_null empty = (Rejected VNull, empty) /\
   exists q,
     x engine (async throws_null) [] empty = (Normal (VPromise q), empty) /\
     exists fault,
       q empty = (Fulfilled (VArray [fault; VNull]), bump empty) /\
       is_new_NullError empty fault).
Proof.
  split.
  - split; [reflexivity |].
    exact (proj1 (null_becomes_NullError engine throws_null [] empty)
             empty eq_refl).
  - split; [reflexivity |]. split; [reflexivity |].
    destruct (proj2 (null_becomes_NullError engine (async throws_null) []
                       empty) rejected_null empty eq_refl) as (q & Hx & Hq).
    exists q. split; [exact Hx | exact (Hq empty empty eq_refl)].
Defined.

Lemma fault_passes_through_witness :
  is_null (@VForeign object unit Boom) = false /\
  (throws_boom [] empty = (Throw (VForeign Boom), empty) /\
   x engine throws_boom [] empty =
   (Normal (VArray [VForeign Boom; VNull]), empty)) /\
  (async throws_boom [] empty = (Normal (VPromise rejected_boom), empty) /\
   rejected_boom empty = (Rejected (VForeign Boom), empty) /\
   exists q,
     x engine (async throws_boom) [] empty = (Normal (VPromise q), empty) /\
     q empty = (Fulfilled (VArray [VForeign Boom; VNull]), empty)).
Proof.
  split; [reflexivity |]. split.
  - split; [reflexivity |].
    exact (proj1 (fault_passes_through engine throws_boom [] empty
                    (VForeign Boom) eq_refl) empty eq_refl).
  - split; [reflexivity |]. split; [reflexivity |].
    destruct (proj2 (fault_passes_through engine (async throws_boom) []
                       empty (VForeign Boom) eq_refl)
                rejected_boom empty eq_refl) as (q & Hx & Hq).
    exists q. split; [exact Hx | exact (Hq empty empty eq_refl)].
Defined.

Lemma wrap_twice_witness :
  (w engine returns_five [] empty =
   (Normal (VArray [VNull; VNumber (Int 5)]), empty) /\
   w engine (w engine returns_five) [] empty =
   (Normal (VArray [VNull; VArray [VNull; VNumber (Int 5)]]), empty)) /\
  (w engine (async returns_five) [] empty =
   (Normal (VPromise (guarded fulfilled_five)), empty) /\
   guarded fulfilled_five empty =
   (Fulfilled (VArray [VNull; VNumber (Int 5)]), empty) /\
   w engine (w engine (async returns_five)) [] empty =
   (Normal (VPromise (guarded (guarded fulfilled_five))),
    empty) /\
   guarded (guarded fulfilled_five) empty =
   (Fulfilled (VArray [VNull; VArray [VNull; VNumber (Int 5)]]), empty)).
Proof.
  split.
  - split; [reflexivity |].
    exact (proj1 (wrap_twice engine returns_five [] empty _ _ eq_refl)
             _ eq_refl).
  - split; [reflexivity |]. split; [reflexivity |].
    destruct (proj2 (wrap_twice engine (async returns_five) [] empty
                       _ _ eq_refl) _ eq_refl) as [Hw Hq].
    split; [exact Hw | exact (Hq empty _ empty eq_refl)].
Defined.

Lemma sync_raise_returns_at_once_witness :
  throws_undefined [] empty = (Throw VUndefined, empty) /\
  exists fault s2,
    x engine throws_undefined [] empty =
    (Normal (VArray [fault; VNull]), s2) /\
    w engine throws_undefined [] empty =
    (Normal (VArray [fault; VNull]), s2) /\
    is_null fault = false /\ fault = VUndefined /\ s2 = empty.
Proof.
  split; [reflexivity |].
  exact (sync_raise_returns_at_once engine throws_undefined [] empty
           VUndefined empty eq_refl).
Defined.

Lemma undefined_is_kept_witness :
  truthy (@VUndefined object unit) = false /\
  is_null (@VUndefined object unit) = false /\
  (throws_undefined [] empty = (Throw VUndefined, empty) /\
   x engine throws_undefined [] empty =
   (Normal (VArray [VUndefined; VNull]), empty) /\
   w engine throws_undefined [] empty =
   (Normal (VArray [VUndefined; VNull]), empty)) /\
  (async throws_undefined [] empty =
   (Normal (VPromise rejected_undefined), empty) /\
   rejected_undefined empty = (Rejected VUndefined, empty) /\
   exists q,
     x engine (async throws_undefined) [] empty =
     (Normal (VPromise q), empty) /\
     q empty = (Fulfilled (VArray [VUndefined; VNull]), empty)).
Proof.
  pose proof (undefined_is_kept engine) as T.
  split; [reflexivity |]. split; [reflexivity |]. split.
  - split; [reflexivity |].
    exact (proj1 (proj2 (T throws_undefined [] empty VUndefined
                           eq_refl eq_refl)) empty eq_refl).
  - split; [reflexivity |]. split; [reflexivity |].
    destruct (proj2 (proj2 (T (async throws_undefined) [] empty VUndefined
                              eq_refl eq_refl))
                rejected_undefined empty eq_refl) as (q & Hx & _ & Hq).
    exists q. split; [exact Hx | exact (Hq empty empty eq_refl)].
Defined.

Lemma pending_detection_witness :
  returns_thenable [] empty = (Normal (VForeign Thenable), empty) /\
  x engine returns_thenable [] empty =
  (if pending_shape engine empty (VForeign Thenable)
   then async_path engine (VForeign Thenable) empty
   else (Normal (VArray [VNull; VForeign Thenable]), empty)).
Proof.
  split; [reflexivity |].
  exact (proj1 (pending_detection engine returns_thenable [] empty
                  _ _ eq_refl)).
Defined.

(** * The executors at concrete callers *)

(** [Deferred] under the two styles: [px] adopts it and ends in
    [[null, 7]], while [x] finds no [catch] on what its [then] returns. *)
Example deferred_under_px_and_x :
  (exists q,
      px runtime runtime_adopt returns_deferred start =
      (Normal (VPromise q), start) /\
      q start = (Fulfilled (VArray [VNull; VNumber (Int 7)]), start)) /\
  x runtime returns_deferred [] start =
  (Normal (VArray [VObject (Instance 0 CTypeError "TypeError"
                              "cannot call catch");
                   VNull]),
   Store tt 1).
Proof. split; [eexists; split |]; reflexivity. Qed.

Lemma rw_never_chains_witness :
  returns_null_rejection [] start =
  (Normal (VPromise null_rejection), start) /\
  rw returns_null_rejection [] start =
  (Normal (VArray [VNull; VPromise null_rejection]), start).
Proof.
  split; [reflexivity |].
  exact (proj1 (proj2 (rw_never_chains returns_null_rejection [] start))
           _ _ eq_refl).
Defined.

Lemma x_is_rw_without_pending_witness :
  raises_oops [] start = (Throw (VForeign Oops), start) /\
  x runtime raises_oops [] start = rw raises_oops [] start /\
  w runtime raises_oops [] start = rw raises_oops [] start.
Proof.
  split; [reflexivity |].
  exact (x_is_rw_without_pending runtime raises_oops [] start _ _
           eq_refl I).
Defined.

Lemma pw_settles_as_awaited_x_witness :
  returns_null_rejection [] start =
  (Normal (VPromise null_rejection), start) /\
  foreign_thenable runtime start (VPromise null_rejection) = false /\
  exists v q s1,
    x runtime returns_null_rejection [] start = (Normal v, s1) /\
    pw runtime runtime_adopt returns_null_rejection [] start =
    (Normal (VPromise q), s1) /\
    forall s2, q s2 = await runtime runtime_adopt s1 v s2.
Proof.
  split; [reflexivity |]. split; [reflexivity |].
  exact (pw_settles_as_awaited_x runtime runtime_adopt
           returns_null_rejection [] start _ _ eq_refl eq_refl).
Defined.

Lemma fault_is_null_iff_success_witness :
  returns_seven [] start = (Normal (VNumber (Int 7)), start) /\
  foreign_thenable runtime start (VNumber (Int 7)) = false /\
  x runtime returns_seven [] start =
  (Normal (VArray [VNull; VNumber (Int 7)]), start) /\
  (is_null (@VNull thing unit) = true <->
   exists r : @val thing unit,
     @Normal thing unit _ (VNumber (Int 7)) = Normal r).
Proof.
  split; [reflexivity |]. split; [reflexivity |]. split; [reflexivity |].
  exact (proj1 (proj1 (fault_is_null_iff_success runtime returns_seven []
                         start _ _ eq_refl eq_refl)
                  VNull (VNumber (Int 7)) start eq_refl)).
Defined.


Lemma thenable_without_catch_witness :
  returns_deferred [] start = (Normal (VForeign Deferred), start) /\
  is_function runtime start Deferred "then" = true /\
  call runtime Deferred "then" on_value start = (Normal VUndefined, start) /\
  lacks_catch runtime start VUndefined = true /\
  exists i,
    x runtime returns_deferred [] start =
    (Normal (VArray [VObject i; VNull]), bump start) /\
    proto i = CTypeError /\ ref i = next_ref start /\
    instanceof (@VObject thing unit i) CNullError = false.
Proof.
  split; [reflexivity |]. split; [reflexivity |]. split; [reflexivity |].
  split; [reflexivity |].
  exact (thenable_without_catch runtime returns_deferred [] start Deferred
           start VUndefined start eq_refl eq_refl eq_refl eq_refl).
Defined.

Lemma every_null_has_its_NullError_witness :
  raises_null [] start = (Throw VNull, start) /\
  raises_null [] (bump start) = (Throw VNull, bump start) /\
  keeps_references raises_null [] (bump start) /\
  exists i1 i2,
    x runtime raises_null [] start =
    (Normal (VArray [VObject i1; VNull]), bump start) /\
    x runtime raises_null [] (bump start) =
    (Normal (VArray [VObject i2; VNull]), bump (bump start)) /\
    ref i1 < ref i2.
Proof.
  split; [reflexivity |]. split; [reflexivity |].
  split; [apply le_n |].
  exact (every_null_has_its_NullError runtime raises_null [] raises_null []
           start start (bump start) eq_refl eq_refl (le_n _)).
Defined.

Lemma first_version_differs_on_null_only_witness :
  (raises_oops [] start = (Throw (VForeign Oops), start) /\
   is_null (@VForeign thing unit Oops) = false /\
   V1.rw raises_oops [] start = rw raises_oops [] start) /\
  (raises_null [] start = (Throw VNull, start) /\
   exists old new,
     V1.rw raises_null [] start =
     (Normal (VArray [VObject old; VNull]), bump start) /\
     rw raises_null [] start =
     (Normal (VArray [VObject new; VNull]), bump start) /\
     ref old = ref new /\ message old = message new /\
     name old = "Error" /\ name new = "NullError" /\
     instanceof (@VObject thing unit old) CError = true /\
     instanceof (@VObject thing unit old) CNullError = false /\
     instanceof (@VObject thing unit new) CError = true /\
     instanceof (@VObject thing unit new) CNullError = true).
Proof.
  split.
  - split; [reflexivity |]. split; [reflexivity |].
    exact (proj1 (first_version_differs_on_null_only raises_oops [] start
                    _ _ eq_refl) eq_refl).
  - split; [reflexivity |].
    exact (proj1 (proj2 (first_version_differs_on_null_only raises_null []
                           start _ _ eq_refl)) eq_refl).
Defined.

Lemma first_version_async_null_witness :
  (raises_null [] start = (Throw VNull, start) /\
   exists q,
     V1.pw runtime runtime_adopt raises_null [] start =
     (Normal (VPromise q), bump start) /\
     q start =
     (Fulfilled (VArray [VObject (Instance 0 CError "Error" "null"); VNull]),
      start)) /\
  (returns_null_rejection [] start =
   (Normal (VPromise null_rejection), start) /\
   null_rejection start = (Rejected VNull, start) /\
   exists q,
     V1.pw runtime runtime_adopt returns_null_rejection [] start =
     (Normal (VPromise q), start) /\
     q start =
     (Fulfilled (VArray [VObject (Instance 0 CError "Error" "null"); VNull]),
      bump start)).
Proof.
  pose proof (first_version_async_null runtime runtime_adopt) as T.
  split.
  - split; [reflexivity |].
    destruct (proj1 (T raises_null [] start) start eq_refl) as (q & Hq & Hs).
    exists q. split; [exact Hq | exact (Hs start)].
  - split; [reflexivity |]. split; [reflexivity |].
    destruct (proj1 (proj2 (T returns_null_rejection [] start))
                null_rejection start eq_refl) as (q & Hq & Hs).
    exists q. split; [exact Hq | exact (Hs start start eq_refl)].
Defined.
